(** * lib_openpose_detector: the OpenPose wrapper, embedded and verified

    A shallow embedding of [lib_openpose_detector.py]: the parameter
    builder [_set_openpose_params], the detector session
    ([OpenposeDetector.__init__], [detect], [save_joints_positions]) and
    the batch driver [test_openpose_on_images].

    Python strings are [string]; the [params] dict is a [gmap string PyVal];
    the calls into OpenPose, OpenCV, NumPy and the operating system are
    recorded as a trace of [Event]s, their results being read from a
    [World] of oracles. *)

From Stdlib Require Import ZArith List Ascii String DecimalString Lia.
From Stdlib Require DecimalNat.
From stdpp Require Import base option list strings gmap.

Local Open Scope string_scope.

(** ** Python string primitives used by the module *)

Module PyStr.

(** [sub in s] for two strings: [sub] occurs somewhere in [s]. *)
Fixpoint contains (sub s : string) : bool :=
  String.prefix sub s ||
  match s with
  | EmptyString => false
  | String _ s' => contains sub s'
  end.

(** [s.replace(old, new)] for a one-character [old]: every occurrence of
    the character is replaced. *)
Fixpoint replace (old : ascii) (new : string) (s : string) : string :=
  match s with
  | EmptyString => EmptyString
  | String c s' =>
      if Ascii.eqb c old then new ++ replace old new s'
      else String c (replace old new s')
  end.

(** [c * n] for a one-character string. *)
Fixpoint repeat (c : ascii) (n : nat) : string :=
  match n with
  | O => EmptyString
  | S n' => String c (repeat c n')
  end.

(** [str(i)] for a non-negative integer. *)
Definition of_nat (i : nat) : string :=
  NilEmpty.string_of_uint (Nat.to_uint i).

(** ["{:05d}".format(i)] for a non-negative integer: the decimal digits,
    padded on the left with zeros up to a minimum width of five. *)
Definition format_05d (i : nat) : string :=
  let digits := of_nat i in
  repeat "0" (5 - String.length digits) ++ digits.

End PyStr.

(** ** Values and module-level settings *)

(** The values stored in [params]: the defaults [False]/[True] and strings. *)
Inductive PyVal : Type :=
  | VBool (b : bool)
  | VStr (s : string).

Abbreviation Params := (gmap string PyVal).

(** The names bound when the module is imported. *)
Record Globals : Type := mkGlobals {
  OPENPOSE_PYTHONPATH : string;
  ROOT : string;
  OPENPOSE_HOME : string;
  MODEL_PATH : string
}.

(** What executing the module's top level (lines 5-23) ends in: the
    globals are bound, or [os.environ[...]] raises [KeyError] for a missing
    variable, or an [import] statement raises [ImportError]. *)
Inductive ImportOutcome : Type :=
  | Imported (g : Globals)
  | RaisesKeyError (variable : string)
  | RaisesImportError (module : string).

(** The modules imported by lines 5-12, in the order of the statements. *)
Definition head_imports : list string :=
  ["sys"; "cv2"; "os"; "sys"; "argparse"; "time"; "numpy"; "tempfile"].

(** The first module of [mods] whose import fails, if any. *)
Fixpoint first_unimportable (can_import : string → bool) (mods : list string)
  : option string :=
  match mods with
  | [] => None
  | m :: rest => if can_import m then first_unimportable can_import rest else Some m
  end.

(** Module initialisation.  [importable extra m] tells whether [import m]
    succeeds when the entries [extra] have been appended to [sys.path];
    [here] is [os.path.dirname(os.path.abspath(__file__))]. *)
Definition import_module (importable : list string → string → bool)
    (environ : gmap string string) (here : string) : ImportOutcome :=
  match first_unimportable (importable []) head_imports with
  | Some m => RaisesImportError m
  | None =>
      match environ !! "OPENPOSE_PYTHONPATH" with
      | None => RaisesKeyError "OPENPOSE_PYTHONPATH"
      | Some pythonpath =>
          if importable [pythonpath] "openpose.pyopenpose" then
            let root := here ++ "/" in
            match environ !! "OPENPOSE_HOME" with
            | None => RaisesKeyError "OPENPOSE_HOME"
            | Some home =>
                let openpose_home := home ++ "/" in
                Imported {| OPENPOSE_PYTHONPATH := pythonpath;
                            ROOT := root;
                            OPENPOSE_HOME := openpose_home;
                            MODEL_PATH := openpose_home ++ "models/" |}
            end
          else RaisesImportError "openpose.pyopenpose"
      end
  end.

(** ** Parameter builder *)

(** [argparse.Namespace] of the driver's parser: one attribute. *)
Record Namespace : Type := mkNamespace { image_dir : string }.

(** The [command_line_args] argument of [_set_openpose_params]: either the
    default [[]] (falsy), or the pair returned by [parse_known_args]
    (a 2-tuple, truthy), whose component [1] is the list of leftover
    tokens. *)
Inductive CommandLineArgs : Type :=
  | NoArgs
  | KnownArgs (ns : Namespace) (rest : list string).

(** The five assignments at the head of [_set_openpose_params]. *)
Definition default_params (g : Globals) : Params :=
  <["model_pose" := VStr "COCO"]>
  (<["net_resolution" := VStr "320x240"]>
  (<["hand" := VBool true]>
  (<["face" := VBool false]>
  (<["model_folder" := VStr (MODEL_PATH g)]> ∅)))).

(** [next_item] of iteration [i]: the following token, or ["1"] at the last
    index.  The loop only runs with [i < len(args[1])], so [i+1] is in
    range whenever it is read. *)
Definition next_item (toks : list string) (i : nat) : string :=
  if negb (Nat.eqb i (length toks - 1)) then nth (i + 1) toks "" else "1".

(** [key = curr_item.replace('-', '')]. *)
Definition key_of (curr_item : string) : string :=
  PyStr.replace "-" "" curr_item.

(** [if key not in params: params[key] = v]. *)
Definition set_if_absent (key : string) (v : PyVal) (params : Params) : Params :=
  match params !! key with
  | None => <[key := v]> params
  | Some _ => params
  end.

(** One iteration of [for i in range(0, len(args[1]))]. *)
Definition loop_body (toks : list string) (params : Params) (i : nat) : Params :=
  let curr_item := nth i toks "" in
  let next_item := next_item toks i in
  if PyStr.contains "--" curr_item && PyStr.contains "--" next_item then
    set_if_absent (key_of curr_item) (VStr "1") params
  else if PyStr.contains "--" curr_item && negb (PyStr.contains "--" next_item) then
    set_if_absent (key_of curr_item) (VStr next_item) params
  else params.

(** [params] after the first [n] iterations of the loop over [toks]. *)
Definition params_after (g : Globals) (toks : list string) (n : nat) : Params :=
  fold_left (loop_body toks) (seq 0 n) (default_params g).

Definition _set_openpose_params (g : Globals) (command_line_args : CommandLineArgs)
  : Params :=
  match command_line_args with
  | NoArgs => default_params g
  | KnownArgs _ rest => params_after g rest (length rest)
  end.

(** ** NumPy arrays, as far as the module uses them *)

Module Np.
Section Arrays.
Context {F : Type}.

(** An [np.ndarray]: its shape and its elements in row-major order. *)
Record ndarray : Type := mk_ndarray { shape : list nat; data : list F }.

(** Number of elements of an array of shape [sh]. *)
Definition size (sh : list nat) : nat := fold_right Nat.mul 1 sh.

(** [np.array(a)] for an array [a]: a copy with the same shape and
    elements. *)
Definition array (a : ndarray) : ndarray :=
  {| shape := shape a; data := data a |}.

(** [np.array(l)] for a Python list [l] of arrays of one common shape:
    the arrays stacked along a new leading axis. *)
Definition array_of_list (l : list ndarray) : ndarray :=
  {| shape := length l :: match l with [] => [] | a :: _ => shape a end;
     data := concat (map data l) |}.

(** Multi-index of the flat position [k] in shape [sh], and back. *)
Fixpoint unravel (sh : list nat) (k : nat) : list nat :=
  match sh with
  | [] => []
  | _ :: rest => (k / size rest) :: unravel rest (k mod size rest)
  end.

Fixpoint ravel (sh idx : list nat) : nat :=
  match sh, idx with
  | _ :: rest, i :: idx' => i * size rest + ravel rest idx'
  | _, _ => 0
  end.

(** Exchange the entries at positions [i] and [j] of a list. *)
Definition swap {A : Type} (i j : nat) (l : list A) : list A :=
  match l !! i, l !! j with
  | Some x, Some y => <[i := y]> (<[j := x]> l)
  | _, _ => l
  end.

(** [np.swapaxes(a, axis1, axis2)]: a NEW array object (a view) with the
    two axes interchanged; [a] itself is left as it is.  Both axes are in
    range where the module calls it. *)
Definition swapaxes (a : ndarray) (axis1 axis2 : nat) : ndarray :=
  let sh' := swap axis1 axis2 (shape a) in
  {| shape := sh';
     data := omap (λ k, data a !! ravel (shape a)
                                    (swap axis1 axis2 (unravel sh' k)))
                  (seq 0 (size sh')) |}.

End Arrays.
Arguments ndarray : clear implicits.
End Np.

(** ** The outside world: OpenPose, OpenCV, argparse and the file system *)

Section Model.
Context {F Frame : Type}.

(** [op.Datum()] after [emplaceAndPop]. *)
Record Datum : Type := mkDatum {
  cvInputData : Frame;
  poseKeypoints : Np.ndarray F;          (* shape [P, N, 3] *)
  handKeypoints : list (Np.ndarray F);   (* left and right, each [P, M, 3] *)
  cvOutputData : Frame
}.

(** What the engine writes into the datum for one frame. *)
Record Detection : Type := mkDetection {
  det_pose : Np.ndarray F;
  det_hands : list (Np.ndarray F);
  det_rendered : Frame
}.

(** The calls that leave the module, in program order. *)
Inductive Event : Type :=
  | WrapperPython
  | Configure (params : Params)
  | Start
  | Makedirs (folder : string)
  | Imread (path : string)
  | EmplaceAndPop (frame : Frame)
  | NpSave (filename : string) (a : Np.ndarray F)
  | Imwrite (filename : string) (image : Frame)
  | Imshow (winname : string) (image : Frame)
  | WaitKey (delay : Z)
  | PrintProgress (done total : nat)
  | Print (msg : string).

(** Results of the external calls.  [waitKey n] is the key code returned
    by the [n]-th call of [cv2.waitKey] (the driver polls once per
    image); [parse_known_args dflt argv] is argparse for the single
    option [--image_dir] with default [dflt]. *)
Record World : Type := mkWorld {
  sys_argv : list string;
  parse_known_args : string → list string → Namespace * list string;
  path_dirname : string → string;
  path_exists : string → bool;
  get_images_on_directory : string → list string;
  imread : string → Frame;
  engine : Frame → Detection;
  waitKey : nat → Z
}.

(** *** A trace monad for the external calls *)

Definition IO (A : Type) : Type := (A * list Event)%type.

Definition io_ret {A : Type} (a : A) : IO A := (a, []).

Definition io_bind {A B : Type} (m : IO A) (k : A → IO B) : IO B :=
  let r := k (fst m) in
  (fst r, (snd m ++ snd r)%list).

Definition emit (e : Event) : IO unit := (tt, [e]).

Definition result {A : Type} (m : IO A) : A := fst m.
Definition trace {A : Type} (m : IO A) : list Event := snd m.

End Model.

Arguments Datum : clear implicits.
Arguments Detection : clear implicits.
Arguments Event : clear implicits.
Arguments World : clear implicits.
Arguments IO : clear implicits.

Declare Scope io_scope.
Delimit Scope io_scope with io.
Notation "x <- m ;; k" := (io_bind m (λ x, k))
  (at level 100, m at next level, right associativity) : io_scope.
Notation "m ;; k" := (io_bind m (λ _, k))
  (at level 100, right associativity) : io_scope.

(** ** Detector session, result persister and batch driver *)

Section Wrapper.
Context {F Frame : Type}.
Variable g : Globals.
Variable w : World F Frame.

Local Open Scope io_scope.
Local Abbreviation IO := (IO F Frame).

(** The detector object: [self._params]; [self._opWrapper] is the engine
    handle, whose calls are the events. *)
Record OpenposeDetector : Type := mkDetector { _params : Params }.

(** [OpenposeDetector.__init__]: the parameter builder is called with no
    argument. *)
Definition OpenposeDetector_init : IO OpenposeDetector :=
  let params := _set_openpose_params g NoArgs in
  emit WrapperPython ;;
  emit (Configure params) ;;
  emit Start ;;
  io_ret {| _params := params |}.

(** [self._opWrapper.emplaceAndPop([datum])] on a datum whose
    [cvInputData] is [color_image]. *)
Definition emplaceAndPop (color_image : Frame) : IO (Datum F Frame) :=
  emit (EmplaceAndPop color_image) ;;
  let d := engine w color_image in
  io_ret {| cvInputData := color_image;
            poseKeypoints := det_pose d;
            handKeypoints := det_hands d;
            cvOutputData := det_rendered d |}.

(** The type of what [detect] returns, by [is_return_joints]. *)
Definition DetectReturn (is_return_joints : bool) : Type :=
  if is_return_joints then (Np.ndarray F * Np.ndarray F)%type
  else Datum F Frame.

Definition detect (self : OpenposeDetector) (color_image : Frame)
    (is_return_joints : bool) : IO (DetectReturn is_return_joints) :=
  datum <- emplaceAndPop color_image ;;
  match is_return_joints return IO (DetectReturn is_return_joints) with
  | true =>
      let body_joints := Np.array (poseKeypoints datum) in
      let hand_joints := Np.array_of_list (handKeypoints datum) in
      let _ := Np.swapaxes hand_joints 0 1 in
      io_ret (body_joints, hand_joints)
  | false => io_ret datum
  end.

Definition save_binary (filename : string) (a : Np.ndarray F) : IO unit :=
  emit (NpSave filename a).

Definition save_joints_positions (self : OpenposeDetector)
    (datum : Datum F Frame) (pose_filename hand_filename : string) : IO unit :=
  save_binary pose_filename (Np.array (poseKeypoints datum)) ;;
  save_binary hand_filename (Np.array_of_list (handKeypoints datum)).

Definition makedir (folder : string) : IO unit :=
  let folder := path_dirname w folder in
  if negb (path_exists w folder) then emit (Makedirs folder) else io_ret tt.

(** [parse_args] of the driver. *)
Definition parse_args : Namespace * list string :=
  parse_known_args w (ROOT g ++ "data/image1/") (sys_argv w).

(** The [for i, imagePath in enumerate(imagePaths)] loop, from index [i]
    on; [total] is [len(imagePaths)]. *)
Fixpoint batch_loop (detector : OpenposeDetector) (DST_FOLDER : string)
    (total i : nat) (imagePaths : list string) : IO unit :=
  match imagePaths with
  | [] => io_ret tt
  | imagePath :: rest =>
      emit (Imread imagePath) ;;
      let color_image := imread w imagePath in
      datum <- detect detector color_image false ;;
      emit (PrintProgress (i + 1) total) ;;
      let s := (DST_FOLDER ++ PyStr.format_05d i) ++ "_" in
      let filename_body := s ++ "body_joints.npy" in
      let filename_hand := s ++ "hand_joints.npy" in
      let filename_image := s ++ "result.jpg" in
      save_joints_positions detector datum filename_body filename_hand ;;
      let image_with_skeletons_on_it := cvOutputData datum in
      emit (Imwrite filename_image image_with_skeletons_on_it) ;;
      emit (Print ("  Write results to: " ++ s)) ;;
      emit (Imshow "Detection Result" image_with_skeletons_on_it) ;;
      emit (WaitKey 15) ;;
      let key := waitKey w i in
      if Z.eqb key 27 then io_ret tt
      else batch_loop detector DST_FOLDER total (S i) rest
  end.

Definition test_openpose_on_images : IO unit :=
  let DST_FOLDER := ROOT g ++ "output/" in
  let args := parse_args in
  detector <- OpenposeDetector_init ;;
  makedir DST_FOLDER ;;
  let imagePaths := get_images_on_directory w (image_dir (fst args)) in
  batch_loop detector DST_FOLDER (length imagePaths) 0 imagePaths.

End Wrapper.

(** ** Observations on a trace *)

Section Observations.
Context {F Frame : Type}.

(** Frames submitted to the engine, one per detection call. *)
Definition detections (t : list (Event F Frame)) : list Frame :=
  omap (λ e, match e with EmplaceAndPop f => Some f | _ => None end) t.

Definition detect_calls (t : list (Event F Frame)) : nat :=
  length (detections t).

(** Names of the files written, in order. *)
Definition files_written (t : list (Event F Frame)) : list string :=
  omap (λ e, match e with
             | NpSave f _ => Some f
             | Imwrite f _ => Some f
             | _ => None
             end) t.

(** The dictionaries the engine was configured with. *)
Definition configured (t : list (Event F Frame)) : list Params :=
  omap (λ e, match e with Configure p => Some p | _ => None end) t.

(** The three files of the image with index [i] under [DST_FOLDER]. *)
Definition outputs (DST_FOLDER : string) (i : nat) : list string :=
  let s := (DST_FOLDER ++ PyStr.format_05d i) ++ "_" in
  [s ++ "body_joints.npy"; s ++ "hand_joints.npy"; s ++ "result.jpg"].

End Observations.

(** ** Concrete settings and worlds, for the examples below *)

Definition g0 : Globals :=
  {| OPENPOSE_PYTHONPATH := "/opt/openpose/build/python";
     ROOT := "/ws/";
     OPENPOSE_HOME := "/opt/openpose/";
     MODEL_PATH := "/opt/openpose/models/" |}.

Definition ns0 : Namespace := {| image_dir := "/ws/data/image1/" |}.

(** A plain reading of [parse_known_args] for the driver's parser:
    [--image_dir VALUE] sets the attribute, every other token is left
    over. *)
Fixpoint simple_parse_known_args (dflt : string) (argv : list string)
  : Namespace * list string :=
  match argv with
  | [] => ({| image_dir := dflt |}, [])
  | tok :: rest =>
      match rest with
      | value :: rest' =>
          if String.eqb tok "--image_dir" then
            let '(_, extras) := simple_parse_known_args dflt rest' in
            ({| image_dir := value |}, extras)
          else
            let '(ns, extras) := simple_parse_known_args dflt rest in
            (ns, tok :: extras)
      | [] => ({| image_dir := dflt |}, [tok])
      end
  end.

(** One person, two joints per body and per hand; frames are named by
    their path. *)
Definition example_engine (frame : string) : Detection Z string :=
  {| det_pose := {| Np.shape := [1; 2; 3]; Np.data := [10; 20; 1; 30; 40; 1]%Z |};
     det_hands := [ {| Np.shape := [1; 2; 3]; Np.data := [1; 2; 1; 3; 4; 1]%Z |};
                    {| Np.shape := [1; 2; 3]; Np.data := [5; 6; 1; 7; 8; 1]%Z |} ];
     det_rendered := frame ++ "+skeleton" |}.

Definition example_world (argv images : list string) (keys : nat → Z)
  : World Z string :=
  {| sys_argv := argv;
     parse_known_args := simple_parse_known_args;
     path_dirname := λ p, p;
     path_exists := λ _, false;
     get_images_on_directory := λ _, images;
     imread := λ p, p;
     engine := example_engine;
     waitKey := keys |}.

(** Three images and nobody at the keyboard ([cv2.waitKey] returns -1). *)
Definition w_three : World Z string :=
  example_world [] ["a.jpg"; "b.jpg"; "c.jpg"] (λ _, (-1)%Z).

(** Three images, and the ESC key pressed while the first one is shown. *)
Definition w_esc : World Z string :=
  example_world [] ["a.jpg"; "b.jpg"; "c.jpg"] (λ _, 27%Z).

(** An empty image directory. *)
Definition w_empty : World Z string :=
  example_world ["--image_dir"; "/tmp/none/"] [] (λ _, (-1)%Z).

(** An engine option on the command line. *)
Definition w_cli : World Z string :=
  example_world ["--number_people_max"; "1"] ["a.jpg"] (λ _, (-1)%Z).

(** Three images, and the ESC key pressed while the second one is shown. *)
Definition w_esc_second : World Z string :=
  example_world [] ["a.jpg"; "b.jpg"; "c.jpg"]
    (λ n, if Nat.eqb n 1 then 27%Z else (-1)%Z).

(** Four images, and the ESC key pressed only while the last one is
    shown. *)
Definition w_esc_last : World Z string :=
  example_world [] ["a.jpg"; "b.jpg"; "c.jpg"; "d.jpg"]
    (λ n, if Nat.eqb n 3 then 27%Z else (-1)%Z).

(** ** Further observations *)

(** The value an unbound flag key receives in iteration [i]: ["1"] when
    [next_item] carries the marker, [next_item] otherwise. *)
Definition flag_value_at (toks : list string) (i : nat) : string :=
  if PyStr.contains "--" (next_item toks i) then "1" else next_item toks i.

(** [int(s)] for a string of decimal digits. *)
Definition int_of_digits (s : string) : option nat :=
  option_map Nat.of_uint (NilEmpty.uint_of_string s).

Section Persisted.
Context {F Frame : Type}.

(** The arrays handed to [np.save], each with its file name. *)
Definition arrays_saved (t : list (Event F Frame))
  : list (string * Np.ndarray F) :=
  omap (λ e, match e with NpSave f a => Some (f, a) | _ => None end) t.

(** The images handed to [cv2.imwrite], each with its file name. *)
Definition images_written (t : list (Event F Frame)) : list (string * Frame) :=
  omap (λ e, match e with Imwrite f img => Some (f, img) | _ => None end) t.

(** The frames handed to [cv2.imshow]. *)
Definition images_shown (t : list (Event F Frame)) : list Frame :=
  omap (λ e, match e with Imshow _ img => Some img | _ => None end) t.

(** The paths handed to [cv2.imread]. *)
Definition images_read (t : list (Event F Frame)) : list string :=
  omap (λ e, match e with Imread path => Some path | _ => None end) t.

(** The progress lines printed: the counter and the total of each. *)
Definition progress_shown (t : list (Event F Frame)) : list (nat * nat) :=
  omap (λ e, match e with PrintProgress k n => Some (k, n) | _ => None end) t.

(** The calls that set the session and the output folder up. *)
Definition setup_calls (t : list (Event F Frame)) : list (Event F Frame) :=
  omap (λ e, match e with
             | WrapperPython | Configure _ | Start | Makedirs _ => Some e
             | _ => None
             end) t.

(** What the engine's result for [frame] looks like on disk under the
    index [i]: the two arrays, and the annotated image. *)
Definition arrays_for (w : World F Frame) (DST_FOLDER : string) (i : nat)
    (frame : Frame) : list (string * Np.ndarray F) :=
  let s := (DST_FOLDER ++ PyStr.format_05d i) ++ "_" in
  [(s ++ "body_joints.npy", Np.array (det_pose (engine w frame)));
   (s ++ "hand_joints.npy", Np.array_of_list (det_hands (engine w frame)))].

Definition image_for (w : World F Frame) (DST_FOLDER : string) (i : nat)
    (frame : Frame) : string * Frame :=
  let s := (DST_FOLDER ++ PyStr.format_05d i) ++ "_" in
  (s ++ "result.jpg", det_rendered (engine w frame)).

End Persisted.

(** * Properties of the parameter builder *)

Section ParameterBuilder.
Variable g : Globals.

Lemma default_params_lookup :
  default_params g !! "model_folder" = Some (VStr (MODEL_PATH g)) ∧
  default_params g !! "face" = Some (VBool false) ∧
  default_params g !! "hand" = Some (VBool true) ∧
  default_params g !! "net_resolution" = Some (VStr "320x240") ∧
  default_params g !! "model_pose" = Some (VStr "COCO").
Proof. unfold default_params. repeat split; by simplify_map_eq. Qed.

Lemma default_params_dom :
  dom (default_params g) =
  ({[ "model_folder"; "face"; "hand"; "net_resolution"; "model_pose" ]} : gset string).
Proof. unfold default_params. rewrite !dom_insert_L, dom_empty_L. set_solver. Qed.

Lemma first_unimportable_None can_import mods :
  first_unimportable can_import mods = None ↔
  ∀ m, m ∈ mods → can_import m = true.
Proof.
  induction mods as [|m mods IH]; simpl.
  - split; [|done]. intros _ m Hm. by apply elem_of_nil in Hm.
  - destruct (can_import m) eqn:Hm.
    + rewrite IH. split.
      * intros H m' [->|Hin]%elem_of_cons; [done|by apply H].
      * intros H m' Hin. apply H. by right.
    + split; [done|]. intros H. rewrite H in Hm; [done|]. by left.
Qed.

(** When the module loads, its globals are read off the environment: the
    model directory is [models/] under the directory named by
    [OPENPOSE_HOME]. *)
Lemma import_module_model_path importable (environ : gmap string string) here g' :
  import_module importable environ here = Imported g' →
  ROOT g' = here ++ "/" ∧
  ∃ home, environ !! "OPENPOSE_HOME" = Some home ∧
          MODEL_PATH g' = (home ++ "/") ++ "models/".
Proof.
  unfold import_module. intros H.
  destruct (first_unimportable _ _); [done|].
  destruct (environ !! "OPENPOSE_PYTHONPATH"); [|done].
  destruct (importable _ _); [|done].
  destruct (environ !! "OPENPOSE_HOME") as [home|]; [|done].
  simplify_eq. split; [done|]. by exists home.
Qed.

(** [set_if_absent] never changes a key that is bound. *)
Lemma set_if_absent_keeps key x (p : Params) k v :
  p !! k = Some v → set_if_absent key x p !! k = Some v.
Proof.
  intros Hk. unfold set_if_absent.
  destruct (p !! key) eqn:Hkey; [done|].
  rewrite lookup_insert_ne; [done|]. intros ->. congruence.
Qed.

Lemma set_if_absent_fresh key x (p : Params) :
  p !! key = None → set_if_absent key x p !! key = Some x.
Proof. intros Hk. unfold set_if_absent. rewrite Hk. apply lookup_insert_eq. Qed.

Lemma loop_body_keeps toks (p : Params) i k v :
  p !! k = Some v → loop_body toks p i !! k = Some v.
Proof.
  intros Hk. unfold loop_body.
  repeat case_match; auto using set_if_absent_keeps.
Qed.

Lemma fold_loop_keeps toks idxs : ∀ (p : Params) k v,
  p !! k = Some v → fold_left (loop_body toks) idxs p !! k = Some v.
Proof.
  induction idxs as [|i idxs IH]; intros p k v Hk; simpl; [done|].
  apply IH. by apply loop_body_keeps.
Qed.

Lemma params_after_S toks n :
  params_after g toks (S n) = loop_body toks (params_after g toks n) n.
Proof. unfold params_after. by rewrite seq_S, fold_left_app. Qed.

(** Once a key is bound it keeps its value through the rest of the loop. *)
Lemma params_after_mono toks i n k v :
  (i ≤ n)%nat →
  params_after g toks i !! k = Some v → params_after g toks n !! k = Some v.
Proof.
  intros Hle Hk. induction Hle as [|n Hle IH]; [done|].
  rewrite params_after_S. by apply loop_body_keeps.
Qed.

Lemma params_after_default toks n k v :
  default_params g !! k = Some v → params_after g toks n !! k = Some v.
Proof. intros Hk. unfold params_after. by apply fold_loop_keeps. Qed.

(** The token read at an index in range, and the one after it. *)
Lemma curr_item_lookup (toks : list string) i curr :
  toks !! i = Some curr → nth i toks "" = curr.
Proof. intros H. by rewrite nth_lookup, H. Qed.

Lemma next_item_lookup (toks : list string) i nxt :
  toks !! S i = Some nxt → next_item toks i = nxt.
Proof.
  intros H. unfold next_item.
  pose proof (lookup_lt_Some _ _ _ H) as Hlt.
  destruct (Nat.eqb_spec i (length toks - 1)) as [->|_]; [lia|]. simpl.
  replace (i + 1) with (S i) by lia. by apply curr_item_lookup.
Qed.

Lemma next_item_last (init : list string) tok :
  next_item (init ++ [tok]) (length init) = "1".
Proof.
  unfold next_item. rewrite length_app. simpl.
  replace (length init + 1 - 1) with (length init) by lia.
  by rewrite Nat.eqb_refl.
Qed.

(** What one iteration does to the key of a flag token that is not bound
    yet. *)
Lemma loop_body_flag toks (p : Params) i curr :
  toks !! i = Some curr →
  PyStr.contains "--" curr = true →
  p !! key_of curr = None →
  loop_body toks p i !! key_of curr =
    Some (VStr (if PyStr.contains "--" (next_item toks i) then "1"
                else next_item toks i)).
Proof.
  intros Hi Hc Hk. unfold loop_body.
  rewrite (curr_item_lookup _ _ _ Hi), Hc. simpl.
  destruct (PyStr.contains "--" (next_item toks i)); simpl;
    by apply set_if_absent_fresh.
Qed.


(** The final value of a flag key that is fresh when its token is reached. *)
Lemma flag_value toks i curr :
  toks !! i = Some curr →
  PyStr.contains "--" curr = true →
  params_after g toks i !! key_of curr = None →
  params_after g toks (length toks) !! key_of curr =
    Some (VStr (if PyStr.contains "--" (next_item toks i) then "1"
                else next_item toks i)).
Proof.
  intros Hi Hc Hk.
  apply (params_after_mono toks (S i)).
  - apply lookup_lt_Some in Hi. lia.
  - rewrite params_after_S. by apply loop_body_flag.
Qed.


End ParameterBuilder.

(** C2 — first-writer-wins: whatever [command_line_args] is, a key bound by
    the defaults (these are exactly [model_folder], [face], [hand],
    [net_resolution] and [model_pose]) has its default value in the
    dictionary that [_set_openpose_params] returns; no override changes
    it. *)
Theorem defaults_never_overwritten g args k v :
  default_params g !! k = Some v →
  _set_openpose_params g args !! k = Some v ∧
  k ∈ ({[ "model_folder"; "face"; "hand"; "net_resolution"; "model_pose" ]}
        : gset string).
Proof.
  intros Hk. split.
  - destruct args as [|ns rest]; simpl; [done|].
    by apply params_after_default.
  - rewrite <- (default_params_dom g). apply elem_of_dom. by exists v.
Qed.

(** The instance named by the specification: with the overrides
    [--face --net_resolution 160x160] the key [face] is still [False]. *)
Lemma defaults_never_overwritten_face :
  default_params g0 !! "face" = Some (VBool false) ∧
  _set_openpose_params g0
    (KnownArgs ns0 ["--face"; "--net_resolution"; "160x160"]) !! "face"
  = Some (VBool false).
Proof.
  assert (H : default_params g0 !! "face" = Some (VBool false))
    by (vm_compute; reflexivity).
  split; [exact H|].
  exact (proj1 (defaults_never_overwritten g0
                  (KnownArgs ns0 ["--face"; "--net_resolution"; "160x160"])
                  "face" (VBool false) H)).
Defined.




(** C4, as stated, fails on the specification's own example: with [--hand]
    as the last token the key [hand] keeps its default [True]; it is not
    the string ["1"]. *)
Lemma trailing_hand_keeps_default :
  last ["--face"; "--hand"] = Some "--hand" ∧
  String.prefix "--" "--hand" = true ∧
  _set_openpose_params g0 (KnownArgs ns0 ["--face"; "--hand"]) !! "hand"
    = Some (VBool true) ∧
  _set_openpose_params g0 (KnownArgs ns0 ["--face"; "--hand"]) !! "hand"
    ≠ Some (VStr "1").
Proof. vm_compute. repeat split; congruence. Qed.

(** C4, amended — for an override list that ends in a flag token, the
    builder returns a dictionary (it is a total function) in which the key
    of that token is the string ["1"] when the key was not bound before the
    last token was reached, and keeps the value it had otherwise. *)
Theorem trailing_flag_defaults_to_1 g ns (init : list string) tok :
  PyStr.contains "--" tok = true →
  let toks := (init ++ [tok])%list in
  let before := params_after g toks (length init) in
  let params := _set_openpose_params g (KnownArgs ns toks) in
  (before !! key_of tok = None → params !! key_of tok = Some (VStr "1")) ∧
  (∀ v, before !! key_of tok = Some v → params !! key_of tok = Some v).
Proof.
  intros Hc toks before params.
  assert (Hlen : length toks = S (length init))
    by (unfold toks; rewrite length_app; simpl; lia).
  assert (Hi : toks !! length init = Some tok)
    by (unfold toks; apply list_lookup_middle; reflexivity).
  split.
  - intros Hk. unfold params. simpl.
    rewrite (flag_value g toks (length init) tok Hi Hc Hk).
    unfold toks. by rewrite next_item_last.
  - intros v Hk. unfold params. simpl.
    apply (params_after_mono g toks (length init)); [lia|done].
Qed.

Lemma trailing_flag_defaults_to_1_example :
  PyStr.contains "--" "--render_pose" = true ∧
  params_after g0 ["--num_gpu"; "2"; "--render_pose"] 2 !! "render_pose" = None ∧
  _set_openpose_params g0
    (KnownArgs ns0 ["--num_gpu"; "2"; "--render_pose"]) !! "render_pose"
  = Some (VStr "1").
Proof.
  assert (Hc : PyStr.contains "--" "--render_pose" = true) by reflexivity.
  assert (Hk : params_after g0 ["--num_gpu"; "2"; "--render_pose"] 2
               !! "render_pose" = None) by (vm_compute; reflexivity).
  refine (conj Hc (conj Hk _)).
  exact (proj1 (trailing_flag_defaults_to_1 g0 ns0 ["--num_gpu"; "2"]
                  "--render_pose" Hc) Hk).
Defined.

(** C5 — when two flag tokens follow each other, the key of the first is
    the string ["1"] in the returned dictionary, provided that key is not
    bound in the configuration when the first token is reached.  A token is
    a flag token when ["--"] occurs in it, as it does in every token that
    begins with ["--"]. *)
Theorem consecutive_flags_first_is_1 g ns (toks : list string) i curr nxt :
  toks !! i = Some curr →
  toks !! S i = Some nxt →
  PyStr.contains "--" curr = true →
  PyStr.contains "--" nxt = true →
  params_after g toks i !! key_of curr = None →
  _set_openpose_params g (KnownArgs ns toks) !! key_of curr = Some (VStr "1").
Proof.
  intros Hi Hn Hc Hnc Hk. simpl.
  rewrite (flag_value g toks i curr Hi Hc Hk).
  by rewrite (next_item_lookup _ _ _ Hn), Hnc.
Qed.

Lemma consecutive_flags_first_is_1_example :
  _set_openpose_params g0
    (KnownArgs ns0 ["--disable_blending"; "--num_gpu"; "2"]) !! "disable_blending"
  = Some (VStr "1").
Proof.
  apply (consecutive_flags_first_is_1 g0 ns0
           ["--disable_blending"; "--num_gpu"; "2"] 0
           "--disable_blending" "--num_gpu");
    solve [reflexivity | vm_compute; reflexivity].
Defined.

(** C6 — for every override list the returned dictionary binds
    [model_folder] to the model directory, [net_resolution] to
    ["320x240"], [hand] to [True] and [model_pose] to ["COCO"]: the
    defaults. *)
Theorem required_keys_hold_defaults g args :
  let params := _set_openpose_params g args in
  params !! "model_folder" = Some (VStr (MODEL_PATH g)) ∧
  params !! "net_resolution" = Some (VStr "320x240") ∧
  params !! "hand" = Some (VBool true) ∧
  params !! "model_pose" = Some (VStr "COCO") ∧
  params !! "model_folder" = default_params g !! "model_folder" ∧
  params !! "net_resolution" = default_params g !! "net_resolution" ∧
  params !! "hand" = default_params g !! "hand" ∧
  params !! "model_pose" = default_params g !! "model_pose".
Proof.
  intros params.
  destruct (default_params_lookup g) as (Hm & _ & Hh & Hn & Hp).
  assert (Keep : ∀ k v, default_params g !! k = Some v → params !! k = Some v).
  { intros k v Hk. unfold params. destruct args as [|ns rest]; simpl; [done|].
    by apply params_after_default. }
  rewrite Hm, Hh, Hn, Hp. repeat split; by apply Keep.
Qed.

(** * Properties of the detector session and the batch driver *)

Section Driver.
Context {F Frame : Type}.
Variable g : Globals.
Variable w : World F Frame.

Lemma trace_bind {A B : Type} (m : IO F Frame A) (k : A → IO F Frame B) :
  trace (io_bind m k) = (trace m ++ trace (k (result m)))%list.
Proof. reflexivity. Qed.

Lemma detections_app (t1 t2 : list (Event F Frame)) :
  detections (t1 ++ t2) = (detections t1 ++ detections t2)%list.
Proof. apply omap_app. Qed.

Lemma files_written_app (t1 t2 : list (Event F Frame)) :
  files_written (t1 ++ t2) = (files_written t1 ++ files_written t2)%list.
Proof. apply omap_app. Qed.

Lemma configured_app (t1 t2 : list (Event F Frame)) :
  configured (t1 ++ t2) = (configured t1 ++ configured t2)%list.
Proof. apply omap_app. Qed.

(** The session is configured with what the builder returns when it is
    given no command line. *)
Lemma init_trace :
  trace (OpenposeDetector_init (F:=F) (Frame:=Frame) g) =
  [WrapperPython; Configure (default_params g); Start].
Proof. reflexivity. Qed.

Lemma makedir_quiet folder :
  detections (trace (makedir w folder)) = [] ∧
  files_written (trace (makedir w folder)) = [] ∧
  configured (trace (makedir w folder)) = [].
Proof. unfold makedir. by destruct (negb _). Qed.

(** One turn of the loop: one detection, three files, then the key poll. *)
Lemma batch_loop_cons det dst total i p rest :
  let t := trace (batch_loop w det dst total i (p :: rest)) in
  let t' := trace (batch_loop w det dst total (S i) rest) in
  let quit := Z.eqb (waitKey w i) 27 in
  detections t = imread w p :: (if quit then [] else detections t') ∧
  files_written t = (outputs dst i ++ (if quit then [] else files_written t'))%list ∧
  configured t = (if quit then [] else configured t').
Proof.
  cbn [batch_loop]. rewrite !trace_bind. cbn -[batch_loop PyStr.format_05d String.append].
  destruct (Z.eqb (waitKey w i) 27); repeat split.
Qed.

(** Without an ESC before the last image, every image is processed. *)
Lemma batch_loop_runs_all det dst total : ∀ paths i,
  (∀ j, (S j < length paths)%nat → waitKey w (i + j) ≠ 27%Z) →
  let t := trace (batch_loop w det dst total i paths) in
  detections t = map (imread w) paths ∧
  files_written t = flat_map (outputs dst) (seq i (length paths)).
Proof.
  induction paths as [|p rest IH]; intros i Hkeys; [done|].
  destruct (batch_loop_cons det dst total i p rest) as (Hd & Hf & _).
  cbv zeta. rewrite Hd, Hf. clear Hd Hf.
  destruct (Z.eqb_spec (waitKey w i) 27) as [Hquit|Hgo].
  - destruct rest as [|p' rest]; [done|].
    exfalso. apply (Hkeys 0%nat); [simpl; lia|].
    by rewrite Nat.add_0_r.
  - destruct (IH (S i)) as (IHd & IHf).
    { intros j Hj. replace (S i + j)%nat with (i + S j)%nat by lia.
      apply Hkeys. simpl. lia. }
    by rewrite IHd, IHf.
Qed.

Lemma batch_loop_no_configure det dst total : ∀ paths i,
  configured (trace (batch_loop w det dst total i paths)) = [].
Proof.
  induction paths as [|p rest IH]; intros i; [done|].
  destruct (batch_loop_cons det dst total i p rest) as (_ & _ & Hc).
  cbv zeta in Hc. rewrite Hc, IH. by destruct (Z.eqb _ _).
Qed.

(** The driver's trace: session start-up, [makedir], then the loop. *)
Lemma driver_trace :
  trace (test_openpose_on_images g w) =
  ([WrapperPython; Configure (default_params g); Start]
   ++ trace (makedir w (ROOT g ++ "output/"))
   ++ trace (batch_loop w (result (OpenposeDetector_init (F:=F) (Frame:=Frame) g))
               (ROOT g ++ "output/")
               (length (get_images_on_directory w (image_dir (fst (parse_args g w)))))
               0 (get_images_on_directory w (image_dir (fst (parse_args g w))))))%list.
Proof. reflexivity. Qed.

(** Whatever the command line, the engine is configured once, with the
    defaults. *)
Lemma driver_configures_defaults :
  configured (trace (test_openpose_on_images g w)) = [default_params g].
Proof.
  rewrite driver_trace, !configured_app.
  destruct (makedir_quiet (ROOT g ++ "output/")) as (_ & _ & ->).
  by rewrite batch_loop_no_configure.
Qed.

Lemma driver_observations :
  let paths := get_images_on_directory w (image_dir (fst (parse_args g w))) in
  let loop := trace (batch_loop w (result (OpenposeDetector_init (F:=F) (Frame:=Frame) g))
                       (ROOT g ++ "output/") (length paths) 0 paths) in
  detections (trace (test_openpose_on_images g w)) = detections loop ∧
  files_written (trace (test_openpose_on_images g w)) = files_written loop.
Proof.
  cbv zeta. rewrite driver_trace, !detections_app, !files_written_app.
  destruct (makedir_quiet (ROOT g ++ "output/")) as (-> & -> & _).
  done.
Qed.

End Driver.

Lemma append_assoc (s1 s2 s3 : string) : (s1 ++ s2) ++ s3 = s1 ++ (s2 ++ s3).
Proof.
  induction s1 as [|c s1 IH]; [reflexivity|].
  change (String c ((s1 ++ s2) ++ s3) = String c (s1 ++ s2 ++ s3)).
  by rewrite IH.
Qed.

Lemma outputs_names (root : string) (i : nat) :
  outputs (root ++ "output/") i =
  [root ++ "output/" ++ PyStr.format_05d i ++ "_body_joints.npy";
   root ++ "output/" ++ PyStr.format_05d i ++ "_hand_joints.npy";
   root ++ "output/" ++ PyStr.format_05d i ++ "_result.jpg"].
Proof. unfold outputs. cbv zeta. by rewrite !append_assoc. Qed.

(** C1 — the driver does not forward the leftover tokens.  On the command
    line [--number_people_max 1] the parser leaves both tokens over, and
    the merge of the defaults with them binds [number_people_max] to
    ["1"]; but the engine is configured with the defaults alone, in which
    that key is absent: [OpenposeDetector.__init__] calls the builder
    without the parsed arguments. *)
Theorem overrides_not_forwarded :
  let args := parse_args g0 w_cli in
  let merged := _set_openpose_params g0 (KnownArgs (fst args) (snd args)) in
  snd args = ["--number_people_max"; "1"] ∧
  merged !! "number_people_max" = Some (VStr "1") ∧
  configured (trace (test_openpose_on_images g0 w_cli)) = [default_params g0] ∧
  default_params g0 !! "number_people_max" = None ∧
  configured (trace (test_openpose_on_images g0 w_cli)) ≠ [merged].
Proof.
  cbv zeta. rewrite driver_configures_defaults.
  assert (Hm : _set_openpose_params g0
                 (KnownArgs (fst (parse_args g0 w_cli)) (snd (parse_args g0 w_cli)))
               !! "number_people_max" = Some (VStr "1")) by (vm_compute; reflexivity).
  assert (Hd : default_params g0 !! "number_people_max" = None)
    by (vm_compute; reflexivity).
  repeat split; try assumption.
  intros Heq.
  pose proof (f_equal (λ l : list Params,
                         match l with
                         | p :: _ => p !! "number_people_max"
                         | [] => None
                         end) Heq) as Hlook.
  cbv beta iota in Hlook. rewrite Hd, Hm in Hlook. discriminate.
Qed.

(** C7, as stated, fails: with three images in the directory and the ESC
    key read after the first one, the driver makes one detection call and
    writes the three files of image 0 only. *)
Lemma esc_stops_after_first_image :
  get_images_on_directory w_esc (image_dir (fst (parse_args g0 w_esc)))
    = ["a.jpg"; "b.jpg"; "c.jpg"] ∧
  detect_calls (trace (test_openpose_on_images g0 w_esc)) = 1%nat ∧
  detect_calls (trace (test_openpose_on_images g0 w_esc)) ≠ 3%nat ∧
  files_written (trace (test_openpose_on_images g0 w_esc))
    = ["/ws/output/00000_body_joints.npy";
       "/ws/output/00000_hand_joints.npy";
       "/ws/output/00000_result.jpg"].
Proof. vm_compute. repeat split; congruence. Qed.

(** C7, amended — for a directory enumeration of exactly three images, and
    provided the key poll does not return ESC (27) after the first or the
    second image, the driver makes exactly three detection calls, one per
    image in order, and writes exactly three files per image: the body
    array, the hand array and the annotated image, named in the output
    folder with the prefixes [00000_], [00001_] and [00002_]. *)
Theorem three_images_three_file_sets {F Frame : Type} g (w : World F Frame) p0 p1 p2 :
  get_images_on_directory w (image_dir (fst (parse_args g w))) = [p0; p1; p2] →
  waitKey w 0 ≠ 27%Z →
  waitKey w 1 ≠ 27%Z →
  let t := trace (test_openpose_on_images g w) in
  detections t = [imread w p0; imread w p1; imread w p2] ∧
  detect_calls t = 3%nat ∧
  files_written t =
    [ROOT g ++ "output/00000_body_joints.npy";
     ROOT g ++ "output/00000_hand_joints.npy";
     ROOT g ++ "output/00000_result.jpg";
     ROOT g ++ "output/00001_body_joints.npy";
     ROOT g ++ "output/00001_hand_joints.npy";
     ROOT g ++ "output/00001_result.jpg";
     ROOT g ++ "output/00002_body_joints.npy";
     ROOT g ++ "output/00002_hand_joints.npy";
     ROOT g ++ "output/00002_result.jpg"].
Proof.
  intros Hdir Hk0 Hk1 t.
  destruct (driver_observations g w) as (Hd & Hf). cbv zeta in Hd, Hf.
  rewrite Hdir in Hd, Hf.
  destruct (batch_loop_runs_all w
              (result (OpenposeDetector_init (F:=F) (Frame:=Frame) g))
              (ROOT g ++ "output/") (length [p0; p1; p2]) [p0; p1; p2] 0)
    as (Ld & Lf).
  { intros [|[|j]] Hj; simpl in *; [done|done|lia]. }
  cbv zeta in Ld, Lf.
  assert (Hdet : detections t = [imread w p0; imread w p1; imread w p2])
    by (unfold t; rewrite Hd; exact Ld).
  split; [exact Hdet|]. split; [unfold detect_calls; by rewrite Hdet|].
  unfold t. rewrite Hf, Lf. cbn [length seq flat_map].
  rewrite !outputs_names. reflexivity.
Qed.

Lemma three_images_three_file_sets_example :
  detect_calls (trace (test_openpose_on_images g0 w_three)) = 3%nat ∧
  files_written (trace (test_openpose_on_images g0 w_three)) =
    ["/ws/output/00000_body_joints.npy"; "/ws/output/00000_hand_joints.npy";
     "/ws/output/00000_result.jpg";
     "/ws/output/00001_body_joints.npy"; "/ws/output/00001_hand_joints.npy";
     "/ws/output/00001_result.jpg";
     "/ws/output/00002_body_joints.npy"; "/ws/output/00002_hand_joints.npy";
     "/ws/output/00002_result.jpg"].
Proof.
  assert (Hdir : get_images_on_directory w_three
                   (image_dir (fst (parse_args g0 w_three)))
                 = ["a.jpg"; "b.jpg"; "c.jpg"]) by reflexivity.
  assert (Hk0 : waitKey w_three 0 ≠ 27%Z) by (simpl; lia).
  assert (Hk1 : waitKey w_three 1 ≠ 27%Z) by (simpl; lia).
  exact (proj2 (three_images_three_file_sets g0 w_three
                  "a.jpg" "b.jpg" "c.jpg" Hdir Hk0 Hk1)).
Defined.

(** C8 — when the enumeration of the input directory is empty the driver
    runs to its end, having started the session and made the output
    folder, with no detection call and no file written. *)
Theorem empty_directory_no_work {F Frame : Type} g (w : World F Frame) :
  get_images_on_directory w (image_dir (fst (parse_args g w))) = [] →
  let run := test_openpose_on_images g w in
  result run = tt ∧
  detect_calls (trace run) = 0%nat ∧
  files_written (trace run) = [] ∧
  trace run = (trace (OpenposeDetector_init (F:=F) (Frame:=Frame) g)
               ++ trace (makedir w (ROOT g ++ "output/")))%list.
Proof.
  intros Hdir run.
  destruct (driver_observations g w) as (Hd & Hf). cbv zeta in Hd, Hf.
  rewrite Hdir in Hd, Hf.
  split; [by destruct (result run)|].
  split; [unfold detect_calls, run; by rewrite Hd|].
  split; [unfold run; by rewrite Hf|].
  unfold run. rewrite driver_trace, Hdir. simpl. by rewrite app_nil_r.
Qed.

Lemma empty_directory_no_work_example :
  get_images_on_directory w_empty (image_dir (fst (parse_args g0 w_empty))) = [] ∧
  detect_calls (trace (test_openpose_on_images g0 w_empty)) = 0%nat ∧
  files_written (trace (test_openpose_on_images g0 w_empty)) = [].
Proof.
  assert (Hdir : get_images_on_directory w_empty
                   (image_dir (fst (parse_args g0 w_empty))) = []) by reflexivity.
  pose proof (empty_directory_no_work g0 w_empty Hdir) as (_ & Hd & Hf & _).
  exact (conj Hdir (conj Hd Hf)).
Defined.

(** Exchanging the first two axes exchanges the first two dimensions. *)
Lemma swapaxes_01_shape {F : Type} (a : Np.ndarray F) d0 d1 rest :
  Np.shape a = d0 :: d1 :: rest →
  Np.shape (Np.swapaxes a 0 1) = d1 :: d0 :: rest.
Proof. intros H. unfold Np.swapaxes. cbn [Np.shape]. by rewrite H. Qed.

(** C10 — [detect(color_image, is_return_joints=True)] returns as
    [hand_joints] the array [np.array(datum.handKeypoints)] itself.  For a
    left and a right hand array of shape [[P, M, 3]] its shape is
    [[2, P, M, 3]], hand axis first, and its elements are those of the left
    hand followed by those of the right.  [np.swapaxes hand_joints 0 1] has
    shape [[P, 2, M, 3]], but that array is dropped: whenever [P] is not 2
    it is not what [detect] returns. *)
Theorem detect_returns_hands_unswapped {F Frame : Type} (w : World F Frame)
    self img (left right : Np.ndarray F) (P M : nat) :
  det_hands (engine w img) = [left; right] →
  Np.shape left = [P; M; 3%nat] →
  Np.shape right = [P; M; 3%nat] →
  let hand_joints := snd (result (detect w self img true)) in
  hand_joints = Np.array_of_list (det_hands (engine w img)) ∧
  Np.shape hand_joints = [2%nat; P; M; 3%nat] ∧
  Np.data hand_joints = (Np.data left ++ Np.data right)%list ∧
  Np.shape (Np.swapaxes hand_joints 0 1) = [P; 2%nat; M; 3%nat] ∧
  (P ≠ 2%nat → hand_joints ≠ Np.swapaxes hand_joints 0 1).
Proof.
  intros Hh Hl Hr hand_joints.
  assert (E : hand_joints = Np.array_of_list (det_hands (engine w img)))
    by reflexivity.
  assert (Hs : Np.shape hand_joints = [2%nat; P; M; 3%nat])
    by (rewrite E, Hh; simpl; by rewrite Hl).
  assert (Hsw : Np.shape (Np.swapaxes hand_joints 0 1) = [P; 2%nat; M; 3%nat])
    by (by apply swapaxes_01_shape).
  split; [exact E|]. split; [exact Hs|].
  split; [rewrite E, Hh; simpl; by rewrite app_nil_r|].
  split; [exact Hsw|].
  intros HP Heq. rewrite Heq, Hsw in Hs. congruence.
Qed.

Lemma detect_returns_hands_unswapped_example :
  Np.shape (snd (result (detect w_three (mkDetector ∅) "a.jpg" true)))
    = [2; 1; 2; 3]%nat ∧
  Np.shape (Np.swapaxes
              (snd (result (detect w_three (mkDetector ∅) "a.jpg" true))) 0 1)
    = [1; 2; 2; 3]%nat ∧
  snd (result (detect w_three (mkDetector ∅) "a.jpg" true))
    ≠ Np.swapaxes (snd (result (detect w_three (mkDetector ∅) "a.jpg" true))) 0 1.
Proof.
  assert (Hh : det_hands (engine w_three "a.jpg") =
               [ {| Np.shape := [1; 2; 3]%nat; Np.data := [1; 2; 1; 3; 4; 1]%Z |};
                 {| Np.shape := [1; 2; 3]%nat; Np.data := [5; 6; 1; 7; 8; 1]%Z |} ])
    by reflexivity.
  pose proof (detect_returns_hands_unswapped w_three (mkDetector ∅) "a.jpg"
                _ _ 1%nat 2%nat Hh eq_refl eq_refl) as (_ & Hs & _ & Hsw & Hne).
  assert (HP : 1%nat ≠ 2%nat) by lia.
  exact (conj Hs (conj Hsw (Hne HP))).
Defined.

(** * Further properties of the parameter builder *)

Section Overrides.
Variable g : Globals.
Variable toks : list string.

Lemma loop_body_spec (p : Params) i curr :
  toks !! i = Some curr →
  loop_body toks p i =
    if PyStr.contains "--" curr
    then set_if_absent (key_of curr) (VStr (flag_value_at toks i)) p
    else p.
Proof.
  intros Hi. unfold loop_body, flag_value_at.
  rewrite (curr_item_lookup _ _ _ Hi).
  destruct (PyStr.contains "--" curr); [|done]. simpl.
  by destruct (PyStr.contains "--" (next_item toks i)).
Qed.

(** Past its own iteration, the key of a flag token is bound. *)
Lemma flag_key_bound j n t :
  (j < n)%nat →
  toks !! j = Some t →
  PyStr.contains "--" t = true →
  is_Some (params_after g toks n !! key_of t).
Proof.
  intros Hjn Hj Hc.
  assert (Hs : is_Some (params_after g toks (S j) !! key_of t)).
  { rewrite params_after_S, (loop_body_spec _ _ _ Hj), Hc.
    unfold set_if_absent.
    destruct (params_after g toks j !! key_of t) eqn:E.
    - rewrite E. by eexists.
    - rewrite lookup_insert_eq. by eexists. }
  destruct Hs as [v Hv]. exists v.
  apply (params_after_mono g toks (S j) n); [lia|done].
Qed.

(** Where a binding comes from: the defaults, or the first flag token
    with that key. *)
Lemma params_after_origin n : (n ≤ length toks)%nat → ∀ k v,
  params_after g toks n !! k = Some v →
  default_params g !! k = Some v ∨
  (default_params g !! k = None ∧
   ∃ i curr, (i < n)%nat ∧ toks !! i = Some curr ∧
     PyStr.contains "--" curr = true ∧ key_of curr = k ∧
     v = VStr (flag_value_at toks i) ∧
     ∀ j t, (j < i)%nat → toks !! j = Some t →
            PyStr.contains "--" t = true → key_of t ≠ k).
Proof.
  induction n as [|n IH]; intros Hn k v Hk.
  { left. exact Hk. }
  assert (Hlt : (n < length toks)%nat) by lia.
  destruct (lookup_lt_is_Some_2 toks n Hlt) as [curr Hcurr].
  assert (Hstep : ∀ v', params_after g toks n !! k = Some v' →
            default_params g !! k = Some v' ∨
            (default_params g !! k = None ∧
             ∃ i curr0, (i < S n)%nat ∧ toks !! i = Some curr0 ∧
               PyStr.contains "--" curr0 = true ∧ key_of curr0 = k ∧
               v' = VStr (flag_value_at toks i) ∧
               ∀ j t, (j < i)%nat → toks !! j = Some t →
                      PyStr.contains "--" t = true → key_of t ≠ k)).
  { intros v' Hv'. destruct (IH ltac:(lia) k v' Hv') as [Hd|(Hd & i & c & Hi & Hrest)].
    - by left.
    - right. split; [done|]. exists i, c. split; [lia|done]. }
  rewrite params_after_S, (loop_body_spec _ _ _ Hcurr) in Hk.
  destruct (PyStr.contains "--" curr) eqn:Hc; [|by apply Hstep].
  unfold set_if_absent in Hk.
  destruct (params_after g toks n !! key_of curr) eqn:Hbound; [by apply Hstep|].
  destruct (decide (key_of curr = k)) as [Heq|Hne].
  - subst k. rewrite lookup_insert_eq in Hk. injection Hk as <-.
    right. split.
    + destruct (default_params g !! key_of curr) as [d|] eqn:Hd; [|done].
      rewrite (params_after_default g toks n _ _ Hd) in Hbound. done.
    + exists n, curr. repeat split; [lia|done..|].
      intros j t Hj Ht Hct Hkey.
      destruct (flag_key_bound j n t Hj Ht Hct) as [x Hx].
      rewrite Hkey, Hbound in Hx. done.
  - rewrite lookup_insert_ne in Hk by done. by apply Hstep.
Qed.

End Overrides.

(** Hyphens never survive in a key. *)
Lemma key_of_no_hyphen s : PyStr.contains "-" (key_of s) = false.
Proof.
  unfold key_of. induction s as [|c s IH]; [reflexivity|].
  cbn [PyStr.replace]. destruct (Ascii.eqb_spec c "-"%char) as [->|Hc].
  - exact IH.
  - cbn [PyStr.contains String.prefix]. rewrite IH.
    destruct (ascii_dec "-" c) as [<-|_]; [done|reflexivity].
Qed.

Lemma next_item_in_range (toks : list string) i :
  (i < length toks)%nat → next_item toks i = "1" ∨ next_item toks i ∈ toks.
Proof.
  intros Hi. unfold next_item.
  destruct (Nat.eqb_spec i (length toks - 1)) as [_|Hne]; simpl; [by left|].
  right. apply list_elem_of_In, nth_In. lia.
Qed.

(** X1 — the keys of the returned dictionary are the default keys together
    with the keys of the tokens that contain ["--"]: every such token binds
    its key, and no other key is ever added. *)
Theorem override_keys g ns (toks : list string) k :
  is_Some (_set_openpose_params g (KnownArgs ns toks) !! k) ↔
  is_Some (default_params g !! k) ∨
  ∃ t, t ∈ toks ∧ PyStr.contains "--" t = true ∧ key_of t = k.
Proof.
  simpl. split.
  - intros [v Hv].
    destruct (params_after_origin g toks (length toks) (le_n _) k v Hv)
      as [Hd|(_ & i & curr & _ & Hi & Hc & Hk & _)].
    + left. by exists v.
    + right. exists curr. split; [|done]. apply list_elem_of_lookup. by exists i.
  - intros [[v Hv]|(t & Hin & Hc & <-)].
    + exists v. by apply params_after_default.
    + apply list_elem_of_lookup in Hin as [i Hi].
      apply (flag_key_bound g toks i); [by apply lookup_lt_Some in Hi|done..].
Qed.

(** X2 — among the override tokens the first one wins: a key that the
    defaults do not bind takes its value from the first token containing
    ["--"] that maps to it (["1"] when that token is last or is followed by
    another marker token, the following token otherwise); later tokens
    with the same key change nothing. *)
Theorem first_flag_occurrence_wins g ns (toks : list string) i curr :
  toks !! i = Some curr →
  PyStr.contains "--" curr = true →
  default_params g !! key_of curr = None →
  (∀ j t, (j < i)%nat → toks !! j = Some t →
          PyStr.contains "--" t = true → key_of t ≠ key_of curr) →
  _set_openpose_params g (KnownArgs ns toks) !! key_of curr
  = Some (VStr (flag_value_at toks i)).
Proof.
  intros Hi Hc Hd Hfirst. simpl.
  pose proof (lookup_lt_Some _ _ _ Hi) as Hlt.
  destruct (flag_key_bound g toks i (length toks) curr Hlt Hi Hc) as [v Hv].
  rewrite Hv. f_equal.
  destruct (params_after_origin g toks (length toks) (le_n _) _ v Hv)
    as [Hd'|(_ & i' & c' & _ & Hi' & Hc' & Hk' & -> & Hmin)]; [congruence|].
  destruct (Nat.lt_trichotomy i i') as [Hlt'|[->|Hgt]]; [|done|].
  - by destruct (Hmin i curr Hlt' Hi Hc).
  - by destruct (Hfirst i' c' Hgt Hi' Hc').
Qed.

Lemma first_flag_occurrence_wins_example :
  _set_openpose_params g0
    (KnownArgs ns0 ["--num-gpu"; "1"; "--numgpu"; "2"; "--num--gpu"]) !! "numgpu"
  = Some (VStr "1").
Proof.
  assert (Hfirst : ∀ j t, (j < 0)%nat →
            (["--num-gpu"; "1"; "--numgpu"; "2"; "--num--gpu"] : list string) !! j
              = Some t →
            PyStr.contains "--" t = true → key_of t ≠ key_of "--num-gpu")
    by (intros j t Hj; lia).
  exact (first_flag_occurrence_wins g0 ns0
           ["--num-gpu"; "1"; "--numgpu"; "2"; "--num--gpu"] 0 "--num-gpu"
           eq_refl eq_refl eq_refl Hfirst).
Defined.

(** X3 — whatever the override list, a value stored under a key that is
    not a default key is a string (never a boolean), is ["1"] or one of
    the tokens, and does not contain ["--"]. *)
Theorem override_values_are_plain_tokens g ns (toks : list string) k v :
  _set_openpose_params g (KnownArgs ns toks) !! k = Some v →
  default_params g !! k = None →
  ∃ s, v = VStr s ∧ PyStr.contains "--" s = false ∧ (s = "1" ∨ s ∈ toks).
Proof.
  simpl. intros Hv Hd.
  destruct (params_after_origin g toks (length toks) (le_n _) k v Hv)
    as [Hd'|(_ & i & curr & _ & Hi & _ & _ & -> & _)]; [congruence|].
  exists (flag_value_at toks i). split; [done|].
  apply lookup_lt_Some in Hi. unfold flag_value_at.
  destruct (PyStr.contains "--" (next_item toks i)) eqn:Hn.
  - split; [reflexivity|by left].
  - split; [done|]. by apply next_item_in_range.
Qed.

Lemma override_values_are_plain_tokens_example :
  _set_openpose_params g0 (KnownArgs ns0 ["--scale"; "2x3"; "--fast"]) !! "scale"
    = Some (VStr "2x3") ∧
  ∃ s, VStr "2x3" = VStr s ∧ PyStr.contains "--" s = false ∧
       (s = "1" ∨ s ∈ ["--scale"; "2x3"; "--fast"]).
Proof.
  refine (conj eq_refl _).
  exact (override_values_are_plain_tokens g0 ns0 ["--scale"; "2x3"; "--fast"]
           "scale" (VStr "2x3") eq_refl eq_refl).
Defined.

(** X4 — an override list in which no token contains ["--"] (the empty
    list among them) changes nothing: the builder returns the defaults. *)
Theorem markerless_overrides_are_ignored g ns (toks : list string) :
  (∀ t, t ∈ toks → PyStr.contains "--" t = false) →
  _set_openpose_params g (KnownArgs ns toks) = default_params g.
Proof.
  intros Hno. simpl. apply map_eq. intros k.
  destruct (params_after g toks (length toks) !! k) as [v|] eqn:Hv.
  - destruct (params_after_origin g toks (length toks) (le_n _) k v Hv)
      as [Hd|(_ & i & curr & _ & Hi & Hc & _)]; [done|].
    rewrite (Hno curr) in Hc; [done|].
    apply list_elem_of_lookup. by exists i.
  - destruct (default_params g !! k) as [d|] eqn:Hd; [|done].
    rewrite (params_after_default g toks _ _ _ Hd) in Hv. done.
Qed.

Lemma markerless_overrides_are_ignored_example :
  _set_openpose_params g0 (KnownArgs ns0 ["-v"; "face"; "160x160"])
  = default_params g0.
Proof.
  apply (markerless_overrides_are_ignored g0 ns0 ["-v"; "face"; "160x160"]).
  intros t Ht. repeat (apply elem_of_cons in Ht as [->|Ht]; [reflexivity|]).
  by apply elem_of_nil in Ht.
Defined.

(** X5 — no key of the returned dictionary contains a hyphen: the marker
    and every other ['-'] of a flag token are removed from its key, so
    [--net-resolution] is stored as [netresolution]. *)
Theorem keys_have_no_hyphen g args k :
  is_Some (_set_openpose_params g args !! k) →
  PyStr.contains "-" k = false.
Proof.
  intros Hk.
  assert (Hdef : is_Some (default_params g !! k) → PyStr.contains "-" k = false).
  { intros Hd. apply elem_of_dom in Hd. rewrite default_params_dom in Hd.
    repeat (apply elem_of_union in Hd as [Hd|Hd]);
      apply elem_of_singleton in Hd; subst k; reflexivity. }
  destruct args as [|ns toks]; [by apply Hdef|].
  destruct Hk as [v Hv]. simpl in Hv.
  destruct (params_after_origin g toks (length toks) (le_n _) k v Hv)
    as [Hd|(_ & i & curr & _ & _ & _ & <- & _)].
  - apply Hdef. by exists v.
  - apply key_of_no_hyphen.
Qed.

Lemma keys_have_no_hyphen_example :
  _set_openpose_params g0 (KnownArgs ns0 ["--net-resolution"; "160x160"])
    !! "netresolution" = Some (VStr "160x160") ∧
  PyStr.contains "-" "netresolution" = false.
Proof.
  assert (H : _set_openpose_params g0
                (KnownArgs ns0 ["--net-resolution"; "160x160"])
              !! "netresolution" = Some (VStr "160x160"))
    by (vm_compute; reflexivity).
  refine (conj H _).
  exact (keys_have_no_hyphen g0
           (KnownArgs ns0 ["--net-resolution"; "160x160"]) "netresolution"
           (ex_intro _ _ H)).
Defined.

(** * Further properties of the batch driver *)

Section Batch.
Context {F Frame : Type}.
Variable g : Globals.
Variable w : World F Frame.
Variable det : OpenposeDetector.
Variable dst : string.
Variable total : nat.

(** What one turn of the loop reads, saves, writes and shows. *)
Lemma batch_loop_cons_io i p rest :
  let t := trace (batch_loop w det dst total i (p :: rest)) in
  let t' := trace (batch_loop w det dst total (S i) rest) in
  let quit := Z.eqb (waitKey w i) 27 in
  images_read t = p :: (if quit then [] else images_read t') ∧
  arrays_saved t =
    (arrays_for w dst i (imread w p) ++ (if quit then [] else arrays_saved t'))%list ∧
  images_written t =
    image_for w dst i (imread w p) :: (if quit then [] else images_written t') ∧
  images_shown t =
    det_rendered (engine w (imread w p)) :: (if quit then [] else images_shown t') ∧
  setup_calls t = (if quit then [] else setup_calls t').
Proof.
  cbn [batch_loop]. rewrite !trace_bind.
  cbn -[batch_loop PyStr.format_05d String.append].
  destruct (Z.eqb (waitKey w i) 27); repeat split.
Qed.

(** The loop keeps step: the images read, the frames detected and the
    files written always cover the same leading part of the enumeration. *)
Lemma batch_loop_in_step : ∀ paths i,
  let t := trace (batch_loop w det dst total i paths) in
  let m := detect_calls t in
  (m ≤ length paths)%nat ∧
  (m = 0%nat ↔ paths = []) ∧
  images_read t = take m paths ∧
  detections t = map (imread w) (take m paths) ∧
  files_written t = flat_map (outputs dst) (seq i m).
Proof.
  induction paths as [|p rest IH]; intros i; [done|].
  destruct (batch_loop_cons w det dst total i p rest) as (Hd & Hf & _).
  destruct (batch_loop_cons_io i p rest) as (Hr & _).
  destruct (IH (S i)) as (IHle & _ & IHr & IHd & IHf).
  cbv zeta in *. unfold detect_calls in *. rewrite Hd, Hf, Hr.
  destruct (Z.eqb (waitKey w i) 27); cbn [length take map seq flat_map].
  - repeat split; try done. lia.
  - repeat split; try done; [lia|by f_equal..].
Qed.

(** Every file of index [i] holds what the engine returned for the [i]-th
    frame that was detected. *)
Lemma batch_loop_persists : ∀ paths i,
  let t := trace (batch_loop w det dst total i paths) in
  arrays_saved t =
    concat (imap (λ j, arrays_for w dst (i + j)) (detections t)) ∧
  images_written t = imap (λ j, image_for w dst (i + j)) (detections t) ∧
  images_shown t = map (λ f, det_rendered (engine w f)) (detections t) ∧
  setup_calls t = [].
Proof.
  induction paths as [|p rest IH]; intros i; [done|].
  destruct (batch_loop_cons w det dst total i p rest) as (Hd & _).
  destruct (batch_loop_cons_io i p rest) as (_ & Ha & Hw & Hs & Hc).
  destruct (IH (S i)) as (IHa & IHw & IHs & IHc).
  cbv zeta in *. rewrite Hd, Ha, Hw, Hs, Hc.
  rewrite !imap_cons, Nat.add_0_r. cbn [concat map].
  destruct (Z.eqb (waitKey w i) 27); [done|].
  rewrite IHa, IHw, IHs, IHc. repeat split; try done.
  - do 2 f_equal. apply imap_ext. intros j f _. simpl. f_equal. lia.
  - f_equal. apply imap_ext. intros j f _. simpl. f_equal. lia.
Qed.

(** The number of images processed when ESC is first read at poll [k]. *)
Lemma batch_loop_stops_at : ∀ paths i k,
  (k < length paths)%nat →
  (∀ j, (j < k)%nat → waitKey w (i + j) ≠ 27%Z) →
  waitKey w (i + k) = 27%Z →
  detect_calls (trace (batch_loop w det dst total i paths)) = S k.
Proof.
  induction paths as [|p rest IH]; intros i k Hk Hgo Hquit; [simpl in Hk; lia|].
  destruct (batch_loop_cons w det dst total i p rest) as (Hd & _).
  cbv zeta in Hd. unfold detect_calls in *. rewrite Hd.
  destruct k as [|k].
  - rewrite Nat.add_0_r in Hquit. rewrite Hquit. reflexivity.
  - destruct (Z.eqb_spec (waitKey w i) 27) as [Heq|_].
    + exfalso. apply (Hgo 0%nat); [lia|]. by rewrite Nat.add_0_r.
    + cbn [length]. f_equal. apply IH.
      * simpl in Hk. lia.
      * intros j Hj. replace (S i + j)%nat with (i + S j)%nat by lia.
        apply Hgo. lia.
      * by replace (S i + k)%nat with (i + S k)%nat by lia.
Qed.

End Batch.

Section DriverRun.
Context {F Frame : Type}.
Variable g : Globals.
Variable w : World F Frame.

Let paths := get_images_on_directory w (image_dir (fst (parse_args g w))).
Let dst := ROOT g ++ "output/".
Let loop :=
  trace (batch_loop w (result (OpenposeDetector_init (F:=F) (Frame:=Frame) g))
           dst (length paths) 0 paths).

(** Before the loop the driver reads, detects, saves and shows nothing. *)
Lemma driver_loop_observations :
  images_read (trace (test_openpose_on_images g w)) = images_read loop ∧
  detections (trace (test_openpose_on_images g w)) = detections loop ∧
  files_written (trace (test_openpose_on_images g w)) = files_written loop ∧
  arrays_saved (trace (test_openpose_on_images g w)) = arrays_saved loop ∧
  images_written (trace (test_openpose_on_images g w)) = images_written loop ∧
  images_shown (trace (test_openpose_on_images g w)) = images_shown loop.
Proof.
  rewrite driver_trace. fold paths dst loop.
  unfold images_read, detections, files_written, arrays_saved,
    images_written, images_shown.
  rewrite !omap_app. unfold makedir.
  by destruct (negb (path_exists w (path_dirname w dst))).
Qed.

Lemma driver_in_step :
  (detect_calls (trace (test_openpose_on_images g w)) ≤ length paths)%nat ∧
  (detect_calls (trace (test_openpose_on_images g w)) = 0%nat ↔ paths = []) ∧
  images_read (trace (test_openpose_on_images g w)) =
    take (detect_calls (trace (test_openpose_on_images g w))) paths ∧
  detections (trace (test_openpose_on_images g w)) =
    map (imread w) (take (detect_calls (trace (test_openpose_on_images g w))) paths) ∧
  files_written (trace (test_openpose_on_images g w)) =
    flat_map (outputs dst) (seq 0 (detect_calls (trace (test_openpose_on_images g w)))).
Proof.
  destruct driver_loop_observations as (Hr & Hd & Hf & _).
  unfold detect_calls. rewrite Hr, Hd, Hf.
  exact (batch_loop_in_step w _ dst (length paths) paths 0).
Qed.

(** X7 — the files of index [i] hold the engine's result for the [i]-th
    detected frame: [i_body_joints.npy] its pose array, [i_hand_joints.npy]
    its two hand arrays stacked, [i_result.jpg] its rendered frame, which
    is also the frame shown on screen. *)
Theorem driver_persists_engine_results :
  arrays_saved (trace (test_openpose_on_images g w)) =
    concat (imap (arrays_for w dst) (detections (trace (test_openpose_on_images g w)))) ∧
  images_written (trace (test_openpose_on_images g w)) =
    imap (image_for w dst) (detections (trace (test_openpose_on_images g w))) ∧
  images_shown (trace (test_openpose_on_images g w)) =
    map (λ f, det_rendered (engine w f))
        (detections (trace (test_openpose_on_images g w))).
Proof.
  destruct driver_loop_observations as (_ & Hd & _ & Ha & Hw & Hs).
  rewrite Hd, Ha, Hw, Hs.
  destruct (batch_loop_persists w
              (result (OpenposeDetector_init (F:=F) (Frame:=Frame) g))
              dst (length paths) paths 0) as (La & Lw & Ls & _).
  repeat split; [exact La|exact Lw|exact Ls].
Qed.

(** X8 — the session is set up first and once: the trace of the driver
    begins with the creation of the wrapper, its configuration with the
    defaults and its start, followed by [os.makedirs] on the output folder
    when (and only when) that folder does not exist; none of these calls
    occurs again after the first image is read. *)
Theorem driver_sets_up_once :
  ∃ rest,
    trace (test_openpose_on_images g w) =
      ([WrapperPython; Configure (default_params g); Start]
       ++ (if path_exists w (path_dirname w dst) then []
           else [Makedirs (path_dirname w dst)])
       ++ rest)%list ∧
    setup_calls rest = [].
Proof.
  exists loop. split.
  - rewrite driver_trace. fold paths dst loop. unfold makedir.
    by destruct (path_exists w (path_dirname w dst)).
  - by destruct (batch_loop_persists w
                   (result (OpenposeDetector_init (F:=F) (Frame:=Frame) g))
                   dst (length paths) paths 0) as (_ & _ & _ & Hs).
Qed.

Lemma driver_runs_all :
  (∀ j, (S j < length paths)%nat → waitKey w j ≠ 27%Z) →
  detect_calls (trace (test_openpose_on_images g w)) = length paths.
Proof.
  intros Hkeys. destruct driver_loop_observations as (_ & Hd & _).
  unfold detect_calls. rewrite Hd.
  destruct (batch_loop_runs_all w
              (result (OpenposeDetector_init (F:=F) (Frame:=Frame) g))
              dst (length paths) paths 0 Hkeys) as (L & _).
  cbv zeta in L. fold loop in L. by rewrite L, length_map.
Qed.

Lemma driver_stops_at k :
  (k < length paths)%nat →
  (∀ j, (j < k)%nat → waitKey w j ≠ 27%Z) →
  waitKey w k = 27%Z →
  detect_calls (trace (test_openpose_on_images g w)) = S k.
Proof.
  intros Hk Hgo Hquit. destruct driver_loop_observations as (_ & Hd & _).
  unfold detect_calls. rewrite Hd.
  exact (batch_loop_stops_at w _ dst (length paths) paths 0 k Hk Hgo Hquit).
Qed.

End DriverRun.

(** ** The numeric prefix and the file names *)

Lemma string_length_app (s1 s2 : string) :
  String.length (s1 ++ s2) = (String.length s1 + String.length s2)%nat.
Proof.
  induction s1 as [|c s1 IH]; [reflexivity|].
  change (S (String.length (s1 ++ s2)) = S (String.length s1 + String.length s2)).
  by rewrite IH.
Qed.

Lemma repeat_length c n : String.length (PyStr.repeat c n) = n.
Proof. induction n as [|n IH]; [reflexivity|]. simpl. by rewrite IH. Qed.

(** Two concatenations with tails of one length agree part by part. *)
Lemma string_app_inj_tail (s1 s2 t1 t2 : string) :
  String.length t1 = String.length t2 →
  s1 ++ t1 = s2 ++ t2 → s1 = s2 ∧ t1 = t2.
Proof.
  intros Hlen. revert s2. induction s1 as [|c s1 IH]; intros [|c' s2] H.
  - done.
  - change (t1 = String c' (s2 ++ t2)) in H.
    apply (f_equal String.length) in H. simpl in H.
    rewrite string_length_app in H. lia.
  - change (String c (s1 ++ t1) = t2) in H.
    apply (f_equal String.length) in H. simpl in H.
    rewrite string_length_app in H. lia.
  - change (String c (s1 ++ t1) = String c' (s2 ++ t2)) in H.
    injection H as -> H. destruct (IH _ H) as [-> ->]. done.
Qed.

Lemma uint_of_string_zeros k s d :
  NilEmpty.uint_of_string s = Some d →
  NilEmpty.uint_of_string (PyStr.repeat "0" k ++ s) = Some (Nat.iter k Decimal.D0 d).
Proof.
  intros Hs. induction k as [|k IH]; [exact Hs|].
  change (NilEmpty.uint_of_string (String "0" (PyStr.repeat "0" k ++ s))
          = Some (Decimal.D0 (Nat.iter k Decimal.D0 d))).
  cbn [NilEmpty.uint_of_string]. by rewrite IH.
Qed.

Lemma of_uint_leading_zeros k d :
  Nat.of_uint (Nat.iter k Decimal.D0 d) = Nat.of_uint d.
Proof. induction k as [|k IH]; [reflexivity|]. simpl. exact IH. Qed.

(** Reading the prefix back as a number gives the index. *)
Lemma format_05d_read_back i : int_of_digits (PyStr.format_05d i) = Some i.
Proof.
  unfold int_of_digits, PyStr.format_05d, PyStr.of_nat. cbv zeta.
  rewrite (uint_of_string_zeros _ _ _ (NilEmpty.usu (Nat.to_uint i))).
  simpl. by rewrite of_uint_leading_zeros, DecimalNat.Unsigned.of_to.
Qed.

Lemma format_05d_inj i j : PyStr.format_05d i = PyStr.format_05d j → i = j.
Proof.
  intros H. apply (f_equal int_of_digits) in H.
  rewrite !format_05d_read_back in H. by injection H.
Qed.

Lemma format_05d_width i : (5 ≤ String.length (PyStr.format_05d i))%nat.
Proof.
  unfold PyStr.format_05d. cbv zeta.
  rewrite string_length_app, repeat_length. lia.
Qed.

(** A file name determines the index of its image. *)
Lemma outputs_inj dst i j x :
  x ∈ outputs dst i → x ∈ outputs dst j → i = j.
Proof.
  assert (Same : ∀ sfx,
            ((dst ++ PyStr.format_05d i) ++ "_") ++ sfx
            = ((dst ++ PyStr.format_05d j) ++ "_") ++ sfx → i = j).
  { intros sfx H.
    apply string_app_inj_tail in H as [H _]; [|done].
    apply string_app_inj_tail in H as [H _]; [|done].
    apply String.app_inj in H. by apply format_05d_inj. }
  assert (Npy : ∀ a b, a ++ "body_joints.npy" ≠ b ++ "hand_joints.npy").
  { intros a b H. by apply string_app_inj_tail in H as [_ H]. }
  assert (Jpg : ∀ a b sfx, a ++ (sfx ++ "y") ≠ b ++ "result.jpg").
  { intros a b sfx H.
    change (a ++ sfx ++ "y" = b ++ "result.jp" ++ "g") in H.
    rewrite <- !append_assoc in H.
    by apply string_app_inj_tail in H as [_ H]. }
  unfold outputs. cbv zeta. intros Hi Hj.
  repeat (apply elem_of_cons in Hi as [Hi|Hi]);
    [| | |by apply elem_of_nil in Hi];
    repeat (apply elem_of_cons in Hj as [Hj|Hj]);
    try (by apply elem_of_nil in Hj);
    subst x;
    first [ by apply (Same _ Hj)
          | by destruct (Npy _ _ Hj)
          | by destruct (Npy _ _ (eq_sym Hj))
          | by destruct (Jpg _ _ "body_joints.np" Hj)
          | by destruct (Jpg _ _ "hand_joints.np" Hj)
          | by destruct (Jpg _ _ "body_joints.np" (eq_sym Hj))
          | by destruct (Jpg _ _ "hand_joints.np" (eq_sym Hj)) ].
Qed.

Lemma outputs_NoDup dst i : NoDup (outputs dst i).
Proof.
  assert (Npy : ∀ a, a ++ "body_joints.npy" ≠ a ++ "hand_joints.npy").
  { intros a H. by apply String.app_inj in H. }
  assert (Jpg : ∀ a sfx, a ++ (sfx ++ "y") ≠ a ++ "result.jpg").
  { intros a sfx H. apply String.app_inj in H.
    change (sfx ++ "y" = "result.jp" ++ "g") in H.
    by apply string_app_inj_tail in H as [_ H]. }
  unfold outputs. cbv zeta.
  repeat (apply NoDup_cons; split); [| |by apply not_elem_of_nil|apply NoDup_nil_2].
  - intros H. repeat (apply elem_of_cons in H as [H|H]).
    + by destruct (Npy _ H).
    + by destruct (Jpg _ "body_joints.np" H).
    + by apply elem_of_nil in H.
  - intros H. repeat (apply elem_of_cons in H as [H|H]).
    + by destruct (Jpg _ "hand_joints.np" H).
    + by apply elem_of_nil in H.
Qed.

Lemma flat_map_outputs_NoDup dst i n :
  NoDup (flat_map (outputs dst) (seq i n)).
Proof.
  assert (E : ∀ l : list nat, flat_map (outputs dst) l = l ≫= outputs dst).
  { induction l as [|x l IH]; [done|]. simpl. by rewrite IH. }
  rewrite E. apply NoDup_bind.
  - intros x1 x2 y _ _. apply outputs_inj.
  - intros x _. apply outputs_NoDup.
  - apply NoDup_ListNoDup, seq_NoDup.
Qed.

(** X6 — whatever keys are pressed, the driver works through a leading
    part of the enumeration and finishes each image it starts: with [m]
    detection calls made, [m] is at most the number of images (and zero
    only for an empty enumeration), the images read and the frames detected
    are the first [m] of the enumeration, in order, and the files written
    are the three files of each of the indices [0 .. m-1]. *)
Theorem driver_keeps_step {F Frame : Type} g (w : World F Frame) :
  let paths := get_images_on_directory w (image_dir (fst (parse_args g w))) in
  let t := trace (test_openpose_on_images g w) in
  let m := detect_calls t in
  (m ≤ length paths)%nat ∧
  (m = 0%nat ↔ paths = []) ∧
  images_read t = take m paths ∧
  detections t = map (imread w) (take m paths) ∧
  files_written t = flat_map (outputs (ROOT g ++ "output/")) (seq 0 m).
Proof.
  destruct (driver_loop_observations g w) as (Hr & Hd & Hf & _).
  cbv zeta in *. unfold detect_calls. rewrite Hr, Hd, Hf.
  exact (batch_loop_in_step w _ (ROOT g ++ "output/") _ _ 0).
Qed.

(** X9 — for an enumeration of any length, if ESC (27) is not read after
    any image but possibly the last, every image is detected, in order,
    and the three files of every index are written. *)
Theorem no_esc_processes_every_image {F Frame : Type} g (w : World F Frame) :
  let paths := get_images_on_directory w (image_dir (fst (parse_args g w))) in
  let t := trace (test_openpose_on_images g w) in
  (∀ j, (S j < length paths)%nat → waitKey w j ≠ 27%Z) →
  detect_calls t = length paths ∧
  detections t = map (imread w) paths ∧
  files_written t =
    flat_map (outputs (ROOT g ++ "output/")) (seq 0 (length paths)).
Proof.
  intros paths t Hkeys.
  pose proof (driver_runs_all g w Hkeys) as Hm.
  destruct (driver_in_step g w) as (_ & _ & _ & Hd & Hf).
  cbv zeta in Hm, Hd, Hf. fold paths t in Hm, Hd, Hf.
  rewrite Hm in Hd, Hf. by rewrite firstn_all in Hd.
Qed.

(** Four images: the polls after the first three return no ESC, and the
    ESC read after the last image no longer matters. *)
Lemma no_esc_processes_every_image_example :
  waitKey w_esc_last 0 ≠ 27%Z ∧
  waitKey w_esc_last 1 ≠ 27%Z ∧
  waitKey w_esc_last 2 ≠ 27%Z ∧
  waitKey w_esc_last 3 = 27%Z ∧
  detect_calls (trace (test_openpose_on_images g0 w_esc_last)) = 4%nat ∧
  detections (trace (test_openpose_on_images g0 w_esc_last))
    = ["a.jpg"; "b.jpg"; "c.jpg"; "d.jpg"] ∧
  files_written (trace (test_openpose_on_images g0 w_esc_last)) =
    flat_map (outputs "/ws/output/") [0%nat; 1%nat; 2%nat; 3%nat].
Proof.
  assert (K0 : waitKey w_esc_last 0 ≠ 27%Z) by (simpl; lia).
  assert (K1 : waitKey w_esc_last 1 ≠ 27%Z) by (simpl; lia).
  assert (K2 : waitKey w_esc_last 2 ≠ 27%Z) by (simpl; lia).
  assert (K3 : waitKey w_esc_last 3 = 27%Z) by reflexivity.
  refine (conj K0 (conj K1 (conj K2 (conj K3 _)))).
  apply (no_esc_processes_every_image g0 w_esc_last).
  intros [|[|[|j]]] Hj; [exact K0|exact K1|exact K2|simpl in Hj; lia].
Defined.

(** X10 — the batch stops at the first ESC: if key 27 is first read at the
    poll after the image of index [k], exactly the images [0 .. k] are
    detected and have their files written; the image being shown when ESC
    is pressed is complete, and no later image is touched. *)
Theorem esc_stops_the_batch {F Frame : Type} g (w : World F Frame) k :
  let paths := get_images_on_directory w (image_dir (fst (parse_args g w))) in
  let t := trace (test_openpose_on_images g w) in
  (k < length paths)%nat →
  (∀ j, (j < k)%nat → waitKey w j ≠ 27%Z) →
  waitKey w k = 27%Z →
  detect_calls t = S k ∧
  images_read t = take (S k) paths ∧
  detections t = map (imread w) (take (S k) paths) ∧
  files_written t = flat_map (outputs (ROOT g ++ "output/")) (seq 0 (S k)).
Proof.
  intros paths t Hk Hgo Hquit.
  pose proof (driver_stops_at g w k Hk Hgo Hquit) as Hm.
  destruct (driver_in_step g w) as (_ & _ & Hr & Hd & Hf).
  cbv zeta in Hm, Hr, Hd, Hf. fold paths t in Hm, Hr, Hd, Hf.
  rewrite Hm in Hr, Hd, Hf. done.
Qed.

Lemma esc_stops_the_batch_example :
  detect_calls (trace (test_openpose_on_images g0 w_esc_second)) = 2%nat ∧
  images_read (trace (test_openpose_on_images g0 w_esc_second))
    = ["a.jpg"; "b.jpg"] ∧
  detections (trace (test_openpose_on_images g0 w_esc_second))
    = ["a.jpg"; "b.jpg"] ∧
  files_written (trace (test_openpose_on_images g0 w_esc_second))
    = flat_map (outputs "/ws/output/") [0%nat; 1%nat].
Proof.
  apply (esc_stops_the_batch g0 w_esc_second 1).
  - simpl. lia.
  - intros [|j] Hj; [simpl; lia|lia].
  - reflexivity.
Defined.

(** X11 — the numeric prefix identifies the image: reading the text of
    ["{:05d}".format(i)] back as a decimal number gives [i], so different
    indices have different prefixes, and the prefix has at least five
    characters. *)
Theorem prefix_reads_back (i : nat) :
  int_of_digits (PyStr.format_05d i) = Some i ∧
  (∀ j, PyStr.format_05d i = PyStr.format_05d j ↔ i = j) ∧
  (5 ≤ String.length (PyStr.format_05d i))%nat.
Proof.
  split; [apply format_05d_read_back|]. split; [|apply format_05d_width].
  intros j. split; [apply format_05d_inj|by intros ->].
Qed.

(** X12 — within one run no file name is used twice: whatever the
    enumeration and the keys, the names of the files written are pairwise
    different, so no output of the run overwrites another. *)
Theorem driver_never_overwrites {F Frame : Type} g (w : World F Frame) :
  NoDup (files_written (trace (test_openpose_on_images g w))).
Proof.
  destruct (driver_in_step g w) as (_ & _ & _ & _ & ->).
  apply flat_map_outputs_NoDup.
Qed.

(** X13 — how importing the module ends.  It completes exactly when
    every import of lines 5-12 succeeds, [OPENPOSE_PYTHONPATH] is set,
    [openpose.pyopenpose] can be imported with that path appended to
    [sys.path], and [OPENPOSE_HOME] is set; then [ROOT] is the module's
    folder with a slash appended and [MODEL_PATH] is [models/] under the
    folder named by [OPENPOSE_HOME].  It raises [KeyError] exactly when the
    imports before the lookup succeed and the variable looked up is
    missing: [OPENPOSE_PYTHONPATH] before OpenPose is imported,
    [OPENPOSE_HOME] after.  Being set, the two variables do not make the
    import complete: a failing import raises [ImportError]. *)
Theorem import_outcome (importable : list string → string → bool)
    (environ : gmap string string) (here : string) :
  let head_ok := ∀ m, m ∈ head_imports → importable [] m = true in
  (∀ g, import_module importable environ here = Imported g ↔
     head_ok ∧
     ∃ pythonpath home,
       environ !! "OPENPOSE_PYTHONPATH" = Some pythonpath ∧
       importable [pythonpath] "openpose.pyopenpose" = true ∧
       environ !! "OPENPOSE_HOME" = Some home ∧
       g = {| OPENPOSE_PYTHONPATH := pythonpath;
              ROOT := here ++ "/";
              OPENPOSE_HOME := home ++ "/";
              MODEL_PATH := home ++ "/models/" |}) ∧
  (∀ v, import_module importable environ here = RaisesKeyError v ↔
     head_ok ∧
     ((v = "OPENPOSE_PYTHONPATH" ∧ environ !! "OPENPOSE_PYTHONPATH" = None) ∨
      (v = "OPENPOSE_HOME" ∧
       ∃ pythonpath,
         environ !! "OPENPOSE_PYTHONPATH" = Some pythonpath ∧
         importable [pythonpath] "openpose.pyopenpose" = true ∧
         environ !! "OPENPOSE_HOME" = None))) ∧
  ((∃ m, import_module importable environ here = RaisesImportError m) ↔
     ¬ head_ok ∨
     ∃ pythonpath,
       environ !! "OPENPOSE_PYTHONPATH" = Some pythonpath ∧
       importable [pythonpath] "openpose.pyopenpose" = false).
Proof.
  intros head_ok. unfold import_module.
  pose proof (first_unimportable_None (importable []) head_imports) as Hhead.
  fold head_ok in Hhead.
  destruct (first_unimportable (importable []) head_imports) as [bad|].
  { assert (Hno : ¬ head_ok) by (intros H; apply Hhead in H; done).
    split; [|split].
    - intros g. split; [done|]. by intros [H _].
    - intros v. split; [done|]. by intros [H _].
    - split; [by left|]. intros _. by exists bad. }
  assert (Hok : head_ok) by (by apply Hhead).
  destruct (environ !! "OPENPOSE_PYTHONPATH") as [pp|].
  2:{ split; [|split].
      - intros g. split; [done|]. by intros (_ & ? & ? & ? & _).
      - intros v. split.
        + intros [= <-]. split; [done|]. by left.
        + intros (_ & [[-> _]|(_ & ? & ? & _)]); done.
      - split; [by intros [? ?]|]. intros [H|(? & ? & _)]; done. }
  destruct (importable [pp] "openpose.pyopenpose") eqn:Hop.
  2:{ split; [|split].
      - intros g. split; [done|].
        intros (_ & ? & ? & ? & ? & _). congruence.
      - intros v. split; [done|].
        intros (_ & [[_ ?]|(_ & ? & ? & ? & _)]); congruence.
      - split; [|by eexists]. intros _. right. by exists pp. }
  destruct (environ !! "OPENPOSE_HOME") as [home|].
  - split; [|split].
    + intros g. split.
      * intros [= <-]. split; [done|]. exists pp, home.
        by rewrite append_assoc.
      * intros (_ & pp' & home' & ? & _ & ? & ->). simplify_eq.
        by rewrite append_assoc.
    + intros v. split; [done|].
      intros (_ & [[_ ?]|(_ & ? & _ & _ & ?)]); done.
    + split; [by intros [? ?]|].
      intros [H|(pp' & ? & ?)]; [done|congruence].
  - split; [|split].
    + intros g. split; [done|]. by intros (_ & ? & ? & _ & _ & ? & _).
    + intros v. split.
      * intros [= <-]. split; [done|]. right. split; [done|]. by exists pp.
      * intros (_ & [[_ ?]|(-> & _)]); done.
    + split; [by intros [? ?]|].
      intros [H|(pp' & ? & ?)]; [done|congruence].
Qed.

(** X14 — from the environment to the engine and the disk: when the import
    of the module, from folder [here], completes with [OPENPOSE_HOME] set to
    [home], the
    driver configures the engine once, with [model_folder] bound to
    [home/models/], and writes its files under [here/output/]. *)
Theorem driver_paths_come_from_environment {F Frame : Type}
    importable (environ : gmap string string) (here home : string) g
    (w : World F Frame) :
  import_module importable environ here = Imported g →
  environ !! "OPENPOSE_HOME" = Some home →
  let t := trace (test_openpose_on_images g w) in
  (∃ params, configured t = [params] ∧
             params !! "model_folder" = Some (VStr (home ++ "/models/"))) ∧
  files_written t = flat_map (outputs (here ++ "/output/")) (seq 0 (detect_calls t)).
Proof.
  intros Himp Hhome t.
  destruct (import_module_model_path _ _ _ _ Himp)
    as (Hroot & home' & Hhome' & Hmp).
  assert (home' = home) as -> by congruence.
  split.
  - exists (default_params g). split; [apply driver_configures_defaults|].
    destruct (default_params_lookup g) as (-> & _).
    by rewrite Hmp, append_assoc.
  - destruct (driver_in_step g w) as (_ & _ & _ & _ & Hf).
    unfold t. rewrite Hf, Hroot. by rewrite append_assoc.
Qed.

Lemma driver_paths_come_from_environment_example :
  (∃ params, configured (trace (test_openpose_on_images g0 w_three)) = [params] ∧
             params !! "model_folder" = Some (VStr "/opt/openpose/models/")) ∧
  files_written (trace (test_openpose_on_images g0 w_three)) =
    flat_map (outputs "/ws/output/")
      (seq 0 (detect_calls (trace (test_openpose_on_images g0 w_three)))).
Proof.
  exact (driver_paths_come_from_environment (λ _ _, true)
           (<["OPENPOSE_HOME" := "/opt/openpose"]>
              (<["OPENPOSE_PYTHONPATH" := "/opt/openpose/build/python"]> ∅))
           "/ws" "/opt/openpose" g0 w_three eq_refl eq_refl).
Defined.

(** ** Progress lines *)

Section Progress.
Context {F Frame : Type}.
Variable g : Globals.
Variable w : World F Frame.

Lemma batch_loop_progress det dst total : ∀ paths i,
  let t := trace (batch_loop w det dst total i paths) in
  progress_shown t = map (λ j, (j + 1, total)%nat) (seq i (detect_calls t)).
Proof.
  induction paths as [|p rest IH]; intros i; [done|].
  destruct (batch_loop_cons w det dst total i p rest) as (Hd & _).
  assert (Hp : progress_shown (trace (batch_loop w det dst total i (p :: rest))) =
               ((i + 1)%nat, total) ::
               (if Z.eqb (waitKey w i) 27 then []
                else progress_shown (trace (batch_loop w det dst total (S i) rest)))).
  { cbn [batch_loop]. rewrite !trace_bind.
    cbn -[batch_loop PyStr.format_05d String.append Nat.add].
    by destruct (Z.eqb (waitKey w i) 27). }
  cbv zeta in *. unfold detect_calls in *. rewrite Hp, Hd.
  destruct (Z.eqb (waitKey w i) 27); [done|].
  cbn [length seq map]. by rewrite IH.
Qed.

(** X15 — the progress lines count the images from 1 and always name the
    full number of images of the enumeration as the total, also when the
    batch is stopped early: the [k]-th line reads [k / n]. *)
Theorem progress_counts_from_one :
  progress_shown (trace (test_openpose_on_images g w)) =
  map (λ j, (j + 1, length (get_images_on_directory w
                              (image_dir (fst (parse_args g w)))))%nat)
      (seq 0 (detect_calls (trace (test_openpose_on_images g w)))).
Proof.
  destruct (driver_loop_observations g w) as (_ & Hd & _).
  cbv zeta in Hd. unfold detect_calls. rewrite Hd.
  rewrite driver_trace. unfold progress_shown at 1. rewrite !omap_app.
  unfold makedir.
  destruct (negb (path_exists w (path_dirname w (ROOT g ++ "output/"))));
    exact (batch_loop_progress _ _ _ _ 0).
Qed.

End Progress.
